(** * The cube test tools: marked-cube test generator and order-table scraper

    A shallow embedding of [test_marked_cube.py] and [parse_orders.py].
    Python scripts are embedded in a small monad [Py] that threads the text
    written to standard output and stops at [exit] or at a raised exception.
    Python [dict]s with string keys are [gmap string string], lists are
    [list]; the [str] literals of the test generator are [string], and the
    text of a scraped page is a list of Unicode code points. *)

From stdpp Require Import gmap strings list.
From Stdlib Require Import ZArith Ascii.

Open Scope string_scope.
Open Scope list_scope.
Open Scope stdpp_scope.

(** ** The interpreter monad *)

Module Py.

(** How a computation ends: normally with a value, by [exit(code)], or by an
    exception that nothing catches (named by its class). *)
Inductive outcome (A : Type) : Type :=
| Normal (a : A)
| Exit (code : Z)
| Raise (exn : string).
Arguments Normal {A} a.
Arguments Exit {A} code.
Arguments Raise {A} exn.

(** Standard output is the list of the arguments of the [print] calls made so
    far, oldest first; each call writes its argument and a newline. *)
Definition stdout := list string.

Definition M (A : Type) : Type := stdout -> outcome A * stdout.

Definition ret {A} (a : A) : M A := fun out => (Normal a, out).

Definition bind {A B} (m : M A) (k : A -> M B) : M B :=
  fun out =>
    match m out with
    | (Normal a, out') => k a out'
    | (Exit c, out') => (Exit c, out')
    | (Raise e, out') => (Raise e, out')
    end.

Definition print (s : string) : M unit := fun out => (Normal tt, out ++ [s]).

Definition exit {A} (code : Z) : M A := fun out => (Exit code, out).

Definition raise {A} (exn : string) : M A := fun out => (Raise exn, out).

(** [for x in xs: body] *)
Fixpoint for_each {A} (xs : list A) (body : A -> M unit) : M unit :=
  match xs with
  | [] => ret tt
  | x :: xs' => bind (body x) (fun _ => for_each xs' body)
  end.

(** A [for] loop that rebinds or mutates one local variable [acc]. *)
Fixpoint for_fold {A S} (xs : list A) (acc : S) (body : S -> A -> M S) : M S :=
  match xs with
  | [] => ret acc
  | x :: xs' => bind (body acc x) (fun acc' => for_fold xs' acc' body)
  end.

(** [d[k]] on a dict: [KeyError] when the key is absent. *)
Definition getitem (d : gmap string string) (k : string) : M string :=
  match d !! k with
  | Some v => ret v
  | None => raise "KeyError"
  end.

(** [l[i]] on a list with a non-negative index: [IndexError] out of range. *)
Definition index {A} (l : list A) (i : nat) : M A :=
  match l !! i with
  | Some v => ret v
  | None => raise "IndexError"
  end.

(** Running a script from an empty standard output. *)
Definition run {A} (m : M A) : outcome A * stdout := m [].

Definition printed {A} (m : M A) : stdout := snd (run m).
Definition result {A} (m : M A) : outcome A := fst (run m).

End Py.

(** [Py.M] is a monad in stdpp's sense, which gives the notations
    [x ← m; k] and [m ;; k]. *)
#[export] Instance py_ret : MRet Py.M := @Py.ret.
#[export] Instance py_bind : MBind Py.M := fun A B k m => Py.bind m k.

(** ** test_marked_cube.py *)

Module TestMarkedCube.
Import Py.

(** [create_marked_cube_test()]: the local list [test_cases] starts empty and
    gets one dict appended per move of [basic_moves]. *)
Definition basic_moves : list string :=
  ["R"; "R'"; "R2"; "L"; "L'"; "L2"; "U"; "U'"; "U2";
   "D"; "D'"; "D2"; "F"; "F'"; "F2"; "B"; "B'"; "B2"].

Definition create_marked_cube_test : M (list (gmap string string)) :=
  let test_cases := [] in
  test_cases ← for_fold basic_moves test_cases (fun test_cases move =>
    ret (test_cases ++
      [ {[ "name" := "marked_cube_" +:+ move;
           "move" := move;
           "description" := "Apply " +:+ move +:+ " to marked cube to detect inversions" ]} ]));
  ret test_cases.

(** [create_equivalence_tests()]: a list literal of pairs of sequences. *)
Definition create_equivalence_tests : M (list (string * string)) :=
  let equivalence_tests :=
    [ ("R U R'", "R U R'");
      ("R R R R", "");
      ("R2 R2", "");
      ("R U' U R'", "R R'");
      ("R U R' U'", "(R U R' U')");
      ("R U R' U'", "U R U' R'") ] in
  ret equivalence_tests.

(** The report line of one pair: [f"'{seq1}' should equal '{seq2}'"]. *)
Definition equivalence_line (seq1 seq2 : string) : string :=
  "'" +:+ seq1 +:+ "' should equal '" +:+ seq2 +:+ "'".

(** The body of [if __name__ == "__main__":]. *)
Definition main : M unit :=
  print "=== Marked Cube Tests ===" ;;
  tests ← create_marked_cube_test ;
  for_each (take 5 tests) (fun test =>
    name ← getitem test "name" ;
    print ("Test: " +:+ name) ;;
    move ← getitem test "move" ;
    print ("Move: " +:+ move) ;;
    description ← getitem test "description" ;
    print ("Description: " +:+ description) ;;
    print "") ;;
  print "=== Equivalence Tests ===" ;;
  pairs ← create_equivalence_tests ;
  for_each pairs (fun '(seq1, seq2) => print (equivalence_line seq1 seq2)) ;;
  print "" ;;
  print "Run these tests to find subtle inversion bugs!".

(** The move tokens of the notation: each face letter with each of the three
    modifiers (none, ['], [2]). *)
Definition face_letters : list string := ["R"; "L"; "U"; "D"; "F"; "B"].
Definition modifier_suffixes : list string := [""; "'"; "2"].
Definition move_tokens : list string :=
  letter ← face_letters ; suffix ← modifier_suffixes ; [letter +:+ suffix].

(** The three lines that [main] prints for a test case, before the empty
    line that ends its block. *)
Definition report_lines (test : gmap string string) : list string :=
  [ "Test: " +:+ default "" (test !! "name");
    "Move: " +:+ default "" (test !! "move");
    "Description: " +:+ default "" (test !! "description") ].

End TestMarkedCube.

(** ** parse_orders.py *)

(** Python's [str] for the text of a page: a sequence of Unicode code points.
    The interpreter's tables of whitespace and digit characters, which
    [str.strip] and [str.isdigit] consult, are parameters. *)
Module Str.

Definition char : Type := N.
Definition str : Type := list char.

(** A string literal of the source (its characters are ASCII). *)
Definition lit (s : string) : str := N_of_ascii <$> String.list_ascii_of_string s.

(** The character ["\t"]. *)
Definition tab_char : char := 9%N.

Section Tables.
Variable isspace : char -> bool.
Variable isdigit_char : char -> bool.

Fixpoint lstrip (s : str) : str :=
  match s with
  | [] => []
  | c :: s' => if isspace c then lstrip s' else s
  end.

Fixpoint rstrip (s : str) : str :=
  match s with
  | [] => []
  | c :: s' =>
      match rstrip s' with
      | [] => if isspace c then [] else [c]
      | r => c :: r
      end
  end.

(** [s.strip()] *)
Definition strip (s : str) : str := rstrip (lstrip s).

(** [s.isdigit()]: at least one character and every character a digit. *)
Definition isdigit (s : str) : bool :=
  match s with
  | [] => false
  | _ => forallb isdigit_char s
  end.

End Tables.

(** Truth value of a [str]: non-empty. *)
Definition truthy (s : str) : bool :=
  match s with
  | [] => false
  | _ :: _ => true
  end.

(** [str.join] with the empty separator. *)
Definition join (l : list str) : str := concat l.

(** The whitespace table of the interpreter: tab to carriage return, the
    separators 28..31, the space, U+0085, U+00A0, U+1680, U+2000..U+200A,
    U+2028, U+2029, U+202F, U+205F and U+3000. *)
Definition isspace_unicode (c : char) : bool :=
  ((9 <=? c) && (c <=? 13) || (28 <=? c) && (c <=? 32) ||
   (c =? 133) || (c =? 160) || (c =? 5760) ||
   (8192 <=? c) && (c <=? 8202) ||
   (c =? 8232) || (c =? 8233) || (c =? 8239) || (c =? 8287) || (c =? 12288))%N.

(** A part of the digit table of the interpreter, for the examples: the
    ASCII digits, the superscripts U+00B2, U+00B3 and U+00B9, the
    Arabic-Indic digits and the fullwidth digits. *)
Definition isdigit_sample (c : char) : bool :=
  ((48 <=? c) && (c <=? 57) ||
   (c =? 178) || (c =? 179) || (c =? 185) ||
   (1632 <=? c) && (c <=? 1641) ||
   (65296 <=? c) && (c <=? 65305))%N.

End Str.

(** The parsed document, as the script looks at it. *)
Module Soup.
Import Str.

(** The classes of the strings of a parsed document. *)
Inductive string_kind : Type :=
| NavigableString | CData | Comment | Declaration | Doctype | ProcessingInstruction
| Stylesheet | Script | TemplateString | RubyTextString | RubyParenthesisString.

#[export] Instance string_kind_eq_dec : EqDecision string_kind.
Proof. solve_decision. Defined.

(** A parsed document is a tree of tags and strings; the parser has given
    each string its class. *)
#[local] Set Warnings "-register-all".
Inductive node : Type :=
| Text (kind : string_kind) (s : str)
| Tag (name : str) (children : list node).

(** [.descendants]: every node below [n], in document order. *)
Fixpoint descendants (n : node) : list node :=
  match n with
  | Text _ _ => []
  | Tag _ children => flat_map (fun c => c :: descendants c) children
  end.

Definition is_tag (name : string) (n : node) : bool :=
  match n with
  | Text _ _ => false
  | Tag name' _ => bool_decide (name' = lit name)
  end.

(** [n.find_all(name)] and [n.find(name)] ([None] when there is none). *)
Definition find_all (name : string) (n : node) : list node :=
  List.filter (is_tag name) (descendants n).

Definition find (name : string) (n : node) : option node :=
  head (find_all name n).

(** The tags whose strings the parser puts in a class of their own. *)
Definition string_containers : list (string * string_kind) :=
  [ ("rt", RubyTextString); ("rp", RubyParenthesisString);
    ("style", Stylesheet); ("script", Script); ("template", TemplateString) ].

(** The classes of strings that [get_text] collects below a tag of the given
    name: the tag's own class for a container, plain strings and CDATA
    otherwise. *)
Definition interesting_string_types (name : str) : list string_kind :=
  match List.find (fun entry => bool_decide (lit (fst entry) = name)) string_containers with
  | Some (_, kind) => [kind]
  | None => [NavigableString; CData]
  end.

Definition string_of_kind (kinds : list string_kind) (n : node) : list str :=
  match n with
  | Text kind s => if bool_decide (kind ∈ kinds) then [s] else []
  | Tag _ _ => []
  end.

(** The strings that [get_text] collects from [n], in document order: for a
    tag, the strings below it of its interesting classes; for a string,
    itself when it is a plain string or CDATA. *)
Definition strings (n : node) : list str :=
  match n with
  | Text _ _ => string_of_kind [NavigableString; CData] n
  | Tag name _ => flat_map (string_of_kind (interesting_string_types name)) (descendants n)
  end.

(** [n.get_text(strip=True)]: each collected string is stripped, the ones
    that become empty are dropped and the rest are joined without a
    separator. *)
Definition get_text_strip (isspace : char -> bool) (n : node) : str :=
  join (List.filter truthy (List.map (strip isspace) (strings n))).

End Soup.

(** The interpreter monad of a script that prints text of a page: as [Py],
    with lines of code points. *)
Module PyU.
Import Str.

Definition stdout := list str.

Definition M (A : Type) : Type := stdout -> Py.outcome A * stdout.

Definition ret {A} (a : A) : M A := fun out => (Py.Normal a, out).

Definition bind {A B} (m : M A) (k : A -> M B) : M B :=
  fun out =>
    match m out with
    | (Py.Normal a, out') => k a out'
    | (Py.Exit c, out') => (Py.Exit c, out')
    | (Py.Raise e, out') => (Py.Raise e, out')
    end.

Definition print (s : str) : M unit := fun out => (Py.Normal tt, out ++ [s]).

Definition exit {A} (code : Z) : M A := fun out => (Py.Exit code, out).

Definition raise {A} (exn : string) : M A := fun out => (Py.Raise exn, out).

(** [for x in xs: body] *)
Fixpoint for_each {A} (xs : list A) (body : A -> M unit) : M unit :=
  match xs with
  | [] => ret tt
  | x :: xs' => bind (body x) (fun _ => for_each xs' body)
  end.

(** [l[i]] on a list with a non-negative index: [IndexError] out of range. *)
Definition index {A} (l : list A) (i : nat) : M A :=
  match l !! i with
  | Some v => ret v
  | None => raise "IndexError"
  end.

(** Running a script from an empty standard output. *)
Definition run {A} (m : M A) : Py.outcome A * stdout := m [].

Definition result {A} (m : M A) : Py.outcome A := fst (run m).

End PyU.

#[export] Instance pyu_ret : MRet PyU.M := @PyU.ret.
#[export] Instance pyu_bind : MBind PyU.M := fun A B k m => PyU.bind m k.

Module ParseOrders.
Import Py PyU Str Soup.

Section Script.
Variable isspace : char -> bool.
Variable isdigit_char : char -> bool.

(** The body of the loop over the rows. *)
Definition row_step (row : node) : M unit :=
  let cells := find_all "td" row in
  if (3 <=? length cells)%nat then
    cell0 ← index cells 0 ;
    let order := get_text_strip isspace cell0 in
    cell2 ← index cells 2 ;
    let sequence_3x3 := get_text_strip isspace cell2 in
    if truthy order && truthy sequence_3x3 && isdigit isdigit_char order then
      print (order ++ [tab_char] ++ sequence_3x3)
    else mret tt
  else mret tt.

(** The script, from the parsed page [soup] on (the page is fetched and
    parsed before the first line that prints). *)
Definition script (soup : node) : M unit :=
  match find "table" soup with
  | None =>
      print (lit "No table found!") ;;
      exit 1%Z
  | Some table =>
      let rows := find_all "tr" table in
      print (lit "Order" ++ [tab_char] ++ lit "3x3x3 Sequence") ;;
      print (lit "-----" ++ [tab_char] ++ lit "--------------") ;;
      for_each (drop 1 rows) row_step
  end.

(** The two lines printed before the data. *)
Definition header_lines : list str :=
  [ lit "Order" ++ [tab_char] ++ lit "3x3x3 Sequence";
    lit "-----" ++ [tab_char] ++ lit "--------------" ].

(** A data row: at least three cells, the stripped text of the first a
    non-empty string of digits only, the stripped text of the third
    non-empty. *)
Definition is_data_row (row : node) : Prop :=
  exists c0 c1 c2 rest,
    find_all "td" row = c0 :: c1 :: c2 :: rest /\
    get_text_strip isspace c0 <> [] /\
    forallb isdigit_char (get_text_strip isspace c0) = true /\
    get_text_strip isspace c2 <> [].

(** The line of a data row. *)
Definition data_line (row : node) : option str :=
  match find_all "td" row with
  | c0 :: _ :: c2 :: _ =>
      Some (get_text_strip isspace c0 ++ [tab_char] ++ get_text_strip isspace c2)
  | _ => None
  end.

(** The lines expected for a row: its line when it is a data row, none
    otherwise. *)
Definition row_lines_ok (row : node) (lines : list str) : Prop :=
  (is_data_row row /\ exists line, data_line row = Some line /\ lines = [line]) \/
  (~ is_data_row row /\ lines = []).

End Script.

(** A plain string and a cell of a page. *)
Definition text (s : string) : node := Text NavigableString (lit s).
Definition td (children : list node) : node := Tag (lit "td") children.
Definition tr (children : list node) : node := Tag (lit "tr") children.

(** A page whose table has a header row and three more rows, and a page
    without a table. *)
Definition sample_table : node :=
  Tag (lit "table")
    [ tr [Tag (lit "th") [text "Order"]; Tag (lit "th") [text "2x2x2"];
          Tag (lit "th") [text "3x3x3"]];
      tr [td [text " 1260 "]; td [text "-"]; td [text "R U2 D' B D' "]];
      tr [td [text "max"]; td [text "-"]; td [text "R U"]];
      tr [td [text "105"]; td [Tag (lit "b") [text " R U"]]] ].

Definition sample_page : node :=
  Tag (lit "[document]") [Tag (lit "h1") [text "Orders"]; sample_table].

Definition page_without_table : node :=
  Tag (lit "[document]") [Tag (lit "p") [text "moved"]].

(** A table with rows whose text is not ASCII or not all plain: a third cell
    that holds a no-break space only, an order written with the superscript
    two and with fullwidth digits, and an order cell with a script and a
    comment in it. *)
Definition unicode_table : node :=
  Tag (lit "table")
    [ tr [];
      tr [td [text "5"]; td [text "-"]; td [Text NavigableString [160%N]]];
      tr [td [Text NavigableString [178%N]]; td [text "-"]; td [text "R"]];
      tr [td [Text NavigableString [160%N; 65297%N; 65298%N; 12288%N]]; td []; td [text "U"]];
      tr [td [text "5"; Tag (lit "script") [Text Script (lit "7")]; Text Comment (lit "8")];
          td []; td [text "F"]] ].

Definition unicode_page : node := Tag (lit "[document]") [unicode_table].

End ParseOrders.

(** ** The move engine that the test tools are written for

    The repository's test tools name moves and sequences for a cube engine
    whose code is not among the two scripts. The engine is modelled here from
    its specification: the sticker model, the move engine, the sequence
    executor and the equivalence checker. *)

Module Engine.

(** Modelled from the spec: the six faces (the engine's state representation
    is missing from the scripts). *)
Inductive Face : Type := Up | Down | Front | Back | Left | Right.

(** Modelled from the spec: the three modifiers of a move. *)
Inductive Modifier : Type := Clockwise | CounterClockwise | HalfTurn.

(** Modelled from the spec: a move is a face and a modifier. *)
Record Move : Type := mkMove { move_face : Face; move_modifier : Modifier }.

(** Modelled from the spec: the error kinds of section 7; a parse error
    carries the offending token and its position. *)
Inductive Error : Type :=
| InvalidCoordinate
| InvalidMove
| ParseError (token : string) (position : nat).

Inductive result (A : Type) : Type :=
| Ok (a : A)
| Err (e : Error).
Arguments Ok {A} a.
Arguments Err {A} e.

#[export] Instance result_ret : MRet result := @Ok.
#[export] Instance result_bind : MBind result := fun A B k m =>
  match m with
  | Ok a => k a
  | Err e => Err e
  end.

Fixpoint mapR {A B} (f : A -> result B) (l : list A) : result (list B) :=
  match l with
  | [] => Ok []
  | x :: l' => y ← f x ; ys ← mapR f l' ; Ok (y :: ys)
  end.

Fixpoint foldR {A S} (f : S -> A -> result S) (acc : S) (l : list A) : result S :=
  match l with
  | [] => Ok acc
  | x :: l' => acc' ← f acc x ; foldR f acc' l'
  end.

(** Modelled from the spec: a coordinate is (face, row, column); rows and
    columns run over 0..2. *)
Definition Coord : Type := Face * nat * nat.

Definition face_index (f : Face) : nat :=
  match f with
  | Up => 0 | Down => 1 | Front => 2 | Back => 3 | Left => 4 | Right => 5
  end.

Definition face_letter (f : Face) : string :=
  match f with
  | Up => "U" | Down => "D" | Front => "F" | Back => "B" | Left => "L" | Right => "R"
  end.

Definition all_faces : list Face := [Up; Down; Front; Back; Left; Right].

Definition valid_coord (c : Coord) : bool :=
  let '(_, row, col) := c in (row <=? 2)%nat && (col <=? 2)%nat.

(** Modelled from the spec: the slot of a coordinate in the stable order of
    the 54 slots, face by face and row by row. *)
Definition slot_index (c : Coord) : nat :=
  let '(f, row, col) := c in 9 * face_index f + 3 * row + col.

(** Modelled from the spec: all 54 coordinates in that stable order. *)
Definition all_coords : list Coord :=
  f ← all_faces ; row ← [0; 1; 2] ; col ← [0; 1; 2] ; [(f, row, col)].

(** Modelled from the spec: the rotation of a face's own stickers. Clockwise,
    the corner at (0,0) moves to (0,2), and so on round the face; the edges
    likewise; the centre stays. *)
Definition own_corners (f : Face) : list Coord := [(f, 0, 0); (f, 0, 2); (f, 2, 2); (f, 2, 0)].
Definition own_edges (f : Face) : list Coord := [(f, 0, 1); (f, 1, 2); (f, 2, 1); (f, 1, 0)].

(** Modelled from the spec: the fixed adjacency table, for each face the
    ordered list of the four edge triplets of its layer. Clockwise, the
    stickers of each triplet move to the next triplet, position by position,
    and those of the last to the first. The convention: every side face has
    row 0 next to Up and its columns from left to right seen from outside; Up
    has row 0 next to Back and Down has row 0 next to Front, both with column
    0 next to Left; clockwise is as seen from outside the turning face. *)
Definition adjacent (f : Face) : list (list Coord) :=
  match f with
  | Up =>
      [ [(Front, 0, 0); (Front, 0, 1); (Front, 0, 2)];
        [(Left, 0, 0); (Left, 0, 1); (Left, 0, 2)];
        [(Back, 0, 0); (Back, 0, 1); (Back, 0, 2)];
        [(Right, 0, 0); (Right, 0, 1); (Right, 0, 2)] ]
  | Down =>
      [ [(Front, 2, 0); (Front, 2, 1); (Front, 2, 2)];
        [(Right, 2, 0); (Right, 2, 1); (Right, 2, 2)];
        [(Back, 2, 0); (Back, 2, 1); (Back, 2, 2)];
        [(Left, 2, 0); (Left, 2, 1); (Left, 2, 2)] ]
  | Right =>
      [ [(Front, 0, 2); (Front, 1, 2); (Front, 2, 2)];
        [(Up, 0, 2); (Up, 1, 2); (Up, 2, 2)];
        [(Back, 2, 0); (Back, 1, 0); (Back, 0, 0)];
        [(Down, 0, 2); (Down, 1, 2); (Down, 2, 2)] ]
  | Left =>
      [ [(Front, 0, 0); (Front, 1, 0); (Front, 2, 0)];
        [(Down, 0, 0); (Down, 1, 0); (Down, 2, 0)];
        [(Back, 2, 2); (Back, 1, 2); (Back, 0, 2)];
        [(Up, 0, 0); (Up, 1, 0); (Up, 2, 0)] ]
  | Front =>
      [ [(Up, 2, 0); (Up, 2, 1); (Up, 2, 2)];
        [(Right, 0, 0); (Right, 1, 0); (Right, 2, 0)];
        [(Down, 0, 2); (Down, 0, 1); (Down, 0, 0)];
        [(Left, 2, 2); (Left, 1, 2); (Left, 0, 2)] ]
  | Back =>
      [ [(Up, 0, 0); (Up, 0, 1); (Up, 0, 2)];
        [(Left, 2, 0); (Left, 1, 0); (Left, 0, 0)];
        [(Down, 2, 2); (Down, 2, 1); (Down, 2, 0)];
        [(Right, 0, 2); (Right, 1, 2); (Right, 2, 2)] ]
  end.

(** One step round a cycle: [[a; b; c; d]] becomes [[b; c; d; a]]. *)
Definition shift {A} (l : list A) : list A := drop 1 l ++ take 1 l.

(** The sticker model and the move engine, for any type of sticker
    identities. *)
Section Cube.
Context {Sticker : Type}.

(** Modelled from the spec: a cube state is the ordered collection of the 54
    sticker slots. *)
Definition CubeState : Type := list Sticker.

Definition well_formed (s : CubeState) : Prop := length s = 54.

(** Modelled from the spec: read a slot by coordinate; [InvalidCoordinate]
    when the row or the column is outside 0..2. *)
Definition read (s : CubeState) (c : Coord) : result Sticker :=
  if valid_coord c then
    match s !! slot_index c with
    | Some x => Ok x
    | None => Err InvalidCoordinate
    end
  else Err InvalidCoordinate.

(** Modelled from the spec: write a slot by coordinate. *)
Definition write (s : CubeState) (c : Coord) (x : Sticker) : result CubeState :=
  if valid_coord c && (slot_index c <? length s)%nat then Ok (<[slot_index c := x]> s)
  else Err InvalidCoordinate.

(** The stickers at [srcs] move to [dsts], position by position: all are read
    before any is written. *)
Definition move_stickers (s : CubeState) (srcs dsts : list Coord) : result CubeState :=
  xs ← mapR (read s) srcs ;
  foldR (fun s' '(c, x) => write s' c x) s (zip dsts xs).

(** Modelled from the spec: a clockwise quarter turn of [f]: step 1 rotates
    the face's own stickers (corners in a 4-cycle, edges in a 4-cycle), step
    2 cycles the twelve stickers of the adjacent triplets. *)
Definition quarter_clockwise (s : CubeState) (f : Face) : result CubeState :=
  s1 ← move_stickers s (own_corners f ++ own_edges f)
                        (shift (own_corners f) ++ shift (own_edges f)) ;
  move_stickers s1 (concat (adjacent f)) (concat (shift (adjacent f))).

(** Modelled from the spec: counter-clockwise, the same cycles in the other
    direction. *)
Definition quarter_counter_clockwise (s : CubeState) (f : Face) : result CubeState :=
  s1 ← move_stickers s (shift (own_corners f) ++ shift (own_edges f))
                        (own_corners f ++ own_edges f) ;
  move_stickers s1 (concat (shift (adjacent f))) (concat (adjacent f)).

(** Modelled from the spec: the move engine; a half turn is two clockwise
    quarter turns composed. *)
Definition apply_move (s : CubeState) (m : Move) : result CubeState :=
  match move_modifier m with
  | Clockwise => quarter_clockwise s (move_face m)
  | CounterClockwise => quarter_counter_clockwise s (move_face m)
  | HalfTurn => s1 ← quarter_clockwise s (move_face m) ; quarter_clockwise s1 (move_face m)
  end.

(** Modelled from the spec: the fold of the move engine over a sequence, left
    to right, the first move applied first. *)
Definition apply_sequence (s : CubeState) (ms : list Move) : result CubeState :=
  foldR apply_move s ms.

(** Modelled from the spec: the equivalence checker on states: true iff each
    of the 54 slots holds the same identity in both. *)
Definition equivalent `{EqDecision Sticker} (s1 s2 : CubeState) : result bool :=
  foldR (fun acc c => x ← read s1 c ; y ← read s2 c ; Ok (acc && bool_decide (x = y)))
        true all_coords.

End Cube.

(** Modelled from the spec: the solved reference state in marked mode, each
    slot holding the token of its own face letter, row and column. *)
Definition digit (n : nat) : string := String (ascii_of_nat (48 + n)) EmptyString.

Definition marker (c : Coord) : string :=
  let '(f, row, col) := c in face_letter f +:+ digit row +:+ digit col.

Definition solved_marked : CubeState := marker <$> all_coords.

(** Modelled from the spec: the solved reference state in colour mode. *)
Definition solved_colored : CubeState := (fun c : Coord => face_letter (fst (fst c))) <$> all_coords.

(** Modelled from the spec: the input notation. A token is a face letter,
    optionally followed by ['] or [2]. *)
Definition parse_face (c : ascii) : option Face :=
  List.find (fun f => String.eqb (face_letter f) (String c EmptyString)) all_faces.

Definition parse_modifier (s : string) : option Modifier :=
  if String.eqb s "" then Some Clockwise
  else if String.eqb s "'" then Some CounterClockwise
  else if String.eqb s "2" then Some HalfTurn
  else None.

Definition parse_token (tok : string) : option Move :=
  match tok with
  | EmptyString => None
  | String c rest => f ← parse_face c ; m ← parse_modifier rest ; Some (mkMove f m)
  end.

(** Modelled from the spec: the whitespace that separates the tokens of the
    notation: tab to carriage return, the separators 28..31 and the space. *)
Definition whitespace (c : ascii) : bool :=
  let n := nat_of_ascii c in
  ((9 <=? n) && (n <=? 13) || (28 <=? n) && (n <=? 32))%nat.

(** Modelled from the spec: tokenize on whitespace; the empty tokens that
    repeated whitespace would give are skipped. [cur] is the token being
    read, in reverse. *)
Fixpoint tokenize_from (cur : list ascii) (s : string) : list string :=
  let flush := match cur with [] => [] | _ => [String.string_of_list_ascii (rev cur)] end in
  match s with
  | EmptyString => flush
  | String c s' =>
      if whitespace c then flush ++ tokenize_from [] s'
      else tokenize_from (c :: cur) s'
  end.

Definition tokenize (s : string) : list string := tokenize_from [] s.

(** Modelled from the spec: a sequence string is well formed when each of its
    tokens follows the grammar; the empty sequence is. *)
Definition well_formed_sequence (s : string) : bool :=
  forallb (fun tok => bool_decide (is_Some (parse_token tok))) (tokenize s).

(** Modelled from the spec: the sequence executor's parser, failing with
    [ParseError] at the first malformed token. *)
Fixpoint parse_tokens (pos : nat) (toks : list string) : result (list Move) :=
  match toks with
  | [] => Ok []
  | tok :: toks' =>
      match parse_token tok with
      | Some m => ms ← parse_tokens (S pos) toks' ; Ok (m :: ms)
      | None => Err (ParseError tok pos)
      end
  end.

Definition parse_sequence (s : string) : result (list Move) := parse_tokens 0 (tokenize s).

(** Modelled from the spec: the sequence executor. *)
Definition execute {Sticker} (s : @CubeState Sticker) (seq : string) : result CubeState :=
  ms ← parse_sequence seq ; apply_sequence s ms.

(** Modelled from the spec: the equivalence checker on sequences: each is
    applied to a fresh solved marked state. *)
Definition sequences_equivalent (seq1 seq2 : string) : result bool :=
  s1 ← execute solved_marked seq1 ;
  s2 ← execute solved_marked seq2 ;
  equivalent s1 s2.

(** Where each slot of the result of a move comes from: the move applied to
    the state whose slot [i] holds [i]. *)
Definition index_table (m : Move) : list nat :=
  match apply_move (seq 0 54) m with
  | Ok t => t
  | Err _ => []
  end.

End Engine.

(** ** Further vocabulary for the scraper *)

Module ParseOrdersMore.
Import Py PyU Str Soup ParseOrders.

Section Vocabulary.
Variable isspace : char -> bool.
Variable isdigit_char : char -> bool.

(** A string of whitespace only (the empty string is one). *)
Definition blank (s : str) : bool := forallb isspace s.

Definition starts_with_space (s : str) : bool :=
  match s with
  | [] => false
  | c :: _ => isspace c
  end.

Definition ends_with_space (s : str) : bool :=
  match last s with
  | None => false
  | Some c => isspace c
  end.

(** A well-formed data line with its two fields. *)
Definition is_data_line (line order sequence : str) : Prop :=
  line = order ++ [tab_char] ++ sequence /\
  isdigit isdigit_char order = true /\
  truthy sequence = true /\
  starts_with_space sequence = false /\
  ends_with_space sequence = false.

(** A string that [get_text] keeps: stripped and not empty. *)
Definition kept (s : str) : Prop :=
  truthy s = true /\ starts_with_space s = false /\ ends_with_space s = false.

(** [s] is [t] with whitespace added before and after. *)
Definition padded (s t : str) : Prop :=
  exists before after,
    blank before = true /\ blank after = true /\ s = before ++ t ++ after.

End Vocabulary.

(** What a reader of the output does with a printed text: cut it at its first
    tab (none when it has no tab). *)
Fixpoint split_tab (line : str) : option (str * str) :=
  match line with
  | [] => None
  | c :: rest =>
      if (c =? tab_char)%N then Some ([], rest)
      else '(field, others) ← split_tab rest ; Some (c :: field, others)
  end.

(** Pages for the edge cases: a table with a single row, a page with two
    tables, a row whose first cell holds only whitespace, and two cells with
    the same text up to whitespace round their strings. *)
Definition header_only_table : node :=
  Tag (lit "table") [tr [td [text "1"]; td [text "2"]; td [text "R"]]].

Definition header_only_page : node := Tag (lit "[document]") [header_only_table].

Definition second_table : node :=
  Tag (lit "table")
    [ tr [Tag (lit "th") [text "n"]];
      tr [td [text "6"]; td [text "-"]; td [text "R U R' U'"]] ].

Definition two_table_page : node :=
  Tag (lit "[document]") [Tag (lit "div") [sample_table]; Tag (lit "p") [text "more"]; second_table].

Definition blank_cell : node :=
  td [Text NavigableString [32%N; 160%N; 12288%N]; Tag (lit "b") []; Text Comment (lit "7")].

Definition blank_order_row : node := tr [blank_cell; td [text "-"]; td [text "R U"]].

Definition data_row : node :=
  tr [td [Text NavigableString [160%N; 49%N; 50%N; 32%N]]; td [text "-"];
      td [text "R U2 D' B D' "]].

Definition padded_cell : node :=
  td [Text NavigableString ([160%N; 32%N] ++ lit "R U2" ++ [10%N]);
      Tag (lit "b") [Text NavigableString ([9%N] ++ lit "D'" ++ [8195%N])]].

Definition plain_cell : node :=
  td [Text NavigableString (lit "R U2"); Tag (lit "b") [Text NavigableString (lit "D'")]].

End ParseOrdersMore.

(** * Properties *)

(** A closed decidable proposition, settled by evaluating its decision
    procedure. *)
Ltac by_evaluation :=
  match goal with |- ?P => apply (bool_decide_unpack P); vm_compute; exact I end.

(** A state of known length is a list of that many slots. *)
Ltac destruct_slots s H :=
  unfold Engine.well_formed in H;
  repeat (destruct s as [| ? s]; simpl in H; [discriminate H | injection H as H]);
  destruct s; [clear H | discriminate H].

(** ** The test generator *)

Module TestMarkedCubeFacts.
Import Py TestMarkedCube.

(** C1: the report line that [main] prints for the pair
    ("R U R' U'", "U R U' R'") of [create_equivalence_tests] is
    "'R U R' U'' should equal 'U R U' R''": the pair is reported with the
    same "should equal" wording as the cancellation pair ("R R R R", ""),
    not as an expected inequality. *)
Theorem commutator_pair_reported_as_equal :
  (exists pairs, result create_equivalence_tests = Normal pairs /\
                 ("R U R' U'", "U R U' R'") ∈ pairs) /\
  equivalence_line "R U R' U'" "U R U' R'" = "'R U R' U'' should equal 'U R U' R''" /\
  equivalence_line "R U R' U'" "U R U' R'" ∈ printed main /\
  equivalence_line "R R R R" "" ∈ printed main.
Proof.
  split; [eexists; split; [reflexivity | by_evaluation] |].
  split; [reflexivity |].
  split; by_evaluation.
Qed.

(** C2, as stated, fails: the second sequence of the fifth pair,
    "(R U R' U')", has parentheses, which the input notation does not
    have. *)
Lemma equivalence_sequences_not_all_well_formed :
  ~ (forall pairs seq1 seq2,
        result create_equivalence_tests = Normal pairs ->
        (seq1, seq2) ∈ pairs ->
        Engine.well_formed_sequence seq1 = true /\ Engine.well_formed_sequence seq2 = true).
Proof.
  intros H.
  destruct (H _ "R U R' U'" "(R U R' U')" eq_refl) as [_ Hwf]; [by_evaluation |].
  vm_compute in Hwf. discriminate Hwf.
Qed.

(** C2, amended: every sequence string in a pair returned by
    [create_equivalence_tests] is a well-formed move sequence, except the
    second sequence "(R U R' U')" of the fifth pair, which is the first
    sequence of that pair, itself well formed, between parentheses. *)
Theorem equivalence_sequences_well_formed_but_one pairs seq1 seq2 :
  result create_equivalence_tests = Normal pairs ->
  (seq1, seq2) ∈ pairs ->
  Engine.well_formed_sequence seq1 = true /\
  (Engine.well_formed_sequence seq2 = true \/
   (pairs !! 4 = Some (seq1, seq2) /\ seq2 = "(R U R' U')" /\ seq2 = "(" +:+ seq1 +:+ ")")).
Proof.
  intros Hrun Hin. injection Hrun as <-.
  repeat (apply elem_of_cons in Hin as [[= -> ->] | Hin];
          [split; [reflexivity | first [left; reflexivity | right; repeat split; reflexivity]] |]).
  by apply elem_of_nil in Hin.
Qed.

Lemma equivalence_sequences_well_formed_but_one_witness :
  Engine.well_formed_sequence "R2 R2" = true /\
  (Engine.well_formed_sequence "" = true \/
   ([ ("R U R'", "R U R'"); ("R R R R", ""); ("R2 R2", ""); ("R U' U R'", "R R'");
      ("R U R' U'", "(R U R' U')"); ("R U R' U'", "U R U' R'") ] !! 4 = Some ("R2 R2", "") /\
    "" = "(R U R' U')" /\ "" = "(" +:+ "R2 R2" +:+ ")")).
Proof.
  apply (equivalence_sequences_well_formed_but_one _ "R2 R2" "" eq_refl).
  do 2 apply list_elem_of_further. apply list_elem_of_here.
Defined.

(** C3: the list returned by [create_equivalence_tests] has the three
    cancellation pairs ("R R R R", ""), ("R2 R2", "") and
    ("R U' U R'", "R R'"), and [main] reports each as a pair whose first
    sequence should equal the second. *)
Theorem cancellation_pairs_listed :
  exists pairs,
    result create_equivalence_tests = Normal pairs /\
    Forall (fun '(seq1, seq2) =>
              (seq1, seq2) ∈ pairs /\ equivalence_line seq1 seq2 ∈ printed main)
           [("R R R R", ""); ("R2 R2", ""); ("R U' U R'", "R R'")].
Proof.
  eexists. split; [reflexivity |].
  repeat (apply Forall_cons; split; [split; by_evaluation |]).
  apply Forall_nil_2.
Qed.

(** C4: [create_marked_cube_test] returns exactly 18 test cases, one for
    each face letter of R, L, U, D, F, B with each modifier (none, ['],
    [2]), and the test case of move token [m] has "name" equal to
    "marked_cube_" followed by [m] and "move" equal to [m]. *)
Theorem create_marked_cube_test_cases :
  exists tests,
    result create_marked_cube_test = Normal tests /\
    length tests = 18 /\
    length move_tokens = 18 /\
    NoDup move_tokens /\
    Forall2 (fun m test =>
               test !! "name" = Some ("marked_cube_" +:+ m) /\ test !! "move" = Some m)
            move_tokens tests.
Proof.
  eexists. split; [reflexivity |].
  split; [reflexivity |]. split; [reflexivity |].
  split; [by_evaluation |].
  repeat (apply Forall2_cons; split; [split; vm_compute; reflexivity |]).
  apply Forall2_nil_2.
Qed.

(** C10: the "Marked Cube Tests" section of the output of [main] is made of
    the blocks of the first 5 of the 18 generated test cases, those of the
    moves R, R', R2, L, L'; no line of the other 13 test cases is printed
    anywhere. *)
Theorem main_reports_first_five_tests :
  exists tests rest,
    result create_marked_cube_test = Normal tests /\
    length tests = 18 /\
    printed main =
      "=== Marked Cube Tests ===" ::
      flat_map (fun test => report_lines test ++ [""]) (take 5 tests) ++
      "=== Equivalence Tests ===" :: rest /\
    (fun test => test !! "move") <$> take 5 tests = Some <$> ["R"; "R'"; "R2"; "L"; "L'"] /\
    length (drop 5 tests) = 13 /\
    Forall (fun test => Forall (fun line => line ∉ printed main) (report_lines test))
           (drop 5 tests).
Proof.
  eexists. eexists. split; [reflexivity |].
  split; [reflexivity |].
  split; [vm_compute; reflexivity |].
  split; [vm_compute; reflexivity |].
  split; [reflexivity |].
  by_evaluation.
Qed.

End TestMarkedCubeFacts.

(** ** The scraper *)

Module ParseOrdersFacts.
Import Py PyU Str Soup ParseOrders.

Lemma truthy_true (s : str) : truthy s = true <-> s <> [].
Proof. destruct s; simpl; split; intros; congruence. Qed.

Lemma truthy_false (s : str) : truthy s = false <-> s = [].
Proof. destruct s; simpl; split; intros; congruence. Qed.

Lemma isdigit_true (isdigit_char : char -> bool) (s : str) :
  isdigit isdigit_char s = true <-> s <> [] /\ forallb isdigit_char s = true.
Proof.
  destruct s as [| c s]; [split; [discriminate | by intros [? _]] |].
  unfold isdigit. split; [intros H; by split | by intros [_ H]].
Qed.

Section Script.
Variable isspace : char -> bool.
Variable isdigit_char : char -> bool.

#[local] Abbreviation row_step := (row_step isspace isdigit_char).
#[local] Abbreviation script := (script isspace isdigit_char).
#[local] Abbreviation is_data_row := (is_data_row isspace isdigit_char).
#[local] Abbreviation data_line := (data_line isspace).
#[local] Abbreviation row_lines_ok := (row_lines_ok isspace isdigit_char).

(** One turn of the loop prints the row's line when the row is a data row,
    and nothing otherwise. *)
Lemma row_step_spec (row : node) (out : stdout) :
  (is_data_row row /\
   exists line, data_line row = Some line /\ row_step row out = (Normal tt, out ++ [line])) \/
  (~ is_data_row row /\ row_step row out = (Normal tt, out)).
Proof.
  unfold ParseOrders.row_step, ParseOrders.is_data_row, ParseOrders.data_line.
  destruct (find_all "td" row) as [| c0 [| c1 [| c2 rest]]]; simpl;
    try (right; split; [intros (? & ? & ? & ? & [=] & _) | reflexivity]).
  unfold mbind, pyu_bind, bind, index, mret, pyu_ret, ret, print; simpl.
  destruct (truthy (get_text_strip isspace c0)) eqn:Horder; simpl.
  - destruct (truthy (get_text_strip isspace c2)) eqn:Hseq; simpl.
    + destruct (isdigit isdigit_char (get_text_strip isspace c0)) eqn:Hdigits.
      * left. split; [| eexists; split; reflexivity].
        exists c0, c1, c2, rest.
        apply truthy_true in Hseq. apply isdigit_true in Hdigits as [Hne Hall].
        by repeat split.
      * right. split; [| reflexivity].
        intros (? & ? & ? & ? & [= <- <- <- <-] & Hne & Hall & _).
        assert (isdigit isdigit_char (get_text_strip isspace c0) = true)
          by (by apply isdigit_true).
        congruence.
    + right. split; [| reflexivity].
      intros (? & ? & ? & ? & [= <- <- <- <-] & _ & _ & H).
      apply truthy_false in Hseq. congruence.
  - right. split; [| reflexivity].
    intros (? & ? & ? & ? & [= <- <- <- <-] & H & _).
    apply truthy_false in Horder. congruence.
Qed.

Lemma for_each_rows (rows : list node) (out : stdout) :
  exists emitted : list (list str),
    for_each rows row_step out = (Normal tt, out ++ concat emitted) /\
    Forall2 row_lines_ok rows emitted.
Proof.
  revert out. induction rows as [| row rows IH]; intros out.
  - exists []. split; [simpl; by rewrite app_nil_r | constructor].
  - simpl. unfold bind.
    destruct (row_step_spec row out) as [(Hrow & line & Hline & ->) | (Hrow & ->)].
    + destruct (IH (out ++ [line])) as (emitted & -> & Hall).
      exists ([line] :: emitted). split.
      * simpl. by rewrite <- app_assoc.
      * constructor; [left; eauto | done].
    + destruct (IH out) as (emitted & -> & Hall).
      exists ([] :: emitted). split; [done |].
      constructor; [by right | done].
Qed.

(** The script on a page with a table: the header lines, then the lines of
    the rows after the first. *)
Lemma script_rows (soup table : node) :
  find "table" soup = Some table ->
  exists emitted : list (list str),
    run (script soup) = (Normal tt, header_lines ++ concat emitted) /\
    Forall2 row_lines_ok (drop 1 (find_all "tr" table)) emitted.
Proof.
  intros Htable. unfold run, ParseOrders.script. rewrite Htable.
  destruct (for_each_rows (drop 1 (find_all "tr" table)) header_lines)
    as (emitted & Hrun & Hall).
  exists emitted. split; [exact Hrun | exact Hall].
Qed.


(** C9: when the page has no table, the script prints exactly
    "No table found!" and exits with status 1: no header line, no data
    line. *)
Theorem script_without_table (soup : node) :
  find "table" soup = None ->
  run (script soup) = (Exit 1%Z, [lit "No table found!"]).
Proof. intros Htable. unfold run, ParseOrders.script. by rewrite Htable. Qed.

End Script.

(** The script on the sample pages, with the interpreter's whitespace table
    and a part of its digit table. A third cell that holds a no-break space
    only gives no line; orders written with the superscript two or with
    fullwidth digits are printed; a script and a comment in a cell are not
    part of its text. *)
Example script_sample_page :
  run (script isspace_unicode isdigit_sample sample_page) =
  (Normal tt, header_lines ++ [lit "1260" ++ [tab_char] ++ lit "R U2 D' B D'"]).
Proof. vm_compute. reflexivity. Qed.

Example script_unicode_page :
  run (script isspace_unicode isdigit_sample unicode_page) =
  (Normal tt,
   header_lines ++
   [ [178%N] ++ [tab_char] ++ lit "R";
     [65297%N; 65298%N] ++ [tab_char] ++ lit "U";
     lit "5" ++ [tab_char] ++ lit "F" ]).
Proof. vm_compute. reflexivity. Qed.


Lemma script_without_table_witness :
  run (script isspace_unicode isdigit_sample page_without_table) =
  (Exit 1%Z, [lit "No table found!"]).
Proof.
  apply (script_without_table isspace_unicode isdigit_sample page_without_table).
  reflexivity.
Defined.

End ParseOrdersFacts.

(** ** The move engine *)

Module EngineFacts.
Import Engine.

(** The marked-cube scenarios of the test tools, run on the engine. *)
Example right_turn_on_marked_cube :
  execute solved_marked "R" =
  Ok [ "U00"; "U01"; "F02"; "U10"; "U11"; "F12"; "U20"; "U21"; "F22";
       "D00"; "D01"; "B20"; "D10"; "D11"; "B10"; "D20"; "D21"; "B00";
       "F00"; "F01"; "D02"; "F10"; "F11"; "D12"; "F20"; "F21"; "D22";
       "U22"; "B01"; "B02"; "U12"; "B11"; "B12"; "U02"; "B21"; "B22";
       "L00"; "L01"; "L02"; "L10"; "L11"; "L12"; "L20"; "L21"; "L22";
       "R20"; "R10"; "R00"; "R21"; "R11"; "R01"; "R22"; "R12"; "R02" ].
Proof. vm_compute. reflexivity. Qed.

Example cancellation_pairs_equivalent :
  sequences_equivalent "R R R R" "" = Ok true /\
  sequences_equivalent "R2 R2" "" = Ok true /\
  sequences_equivalent "R U' U R'" "R R'" = Ok true.
Proof. repeat split; vm_compute; reflexivity. Qed.

Example commutators_not_equivalent :
  sequences_equivalent "R U R' U'" "U R U' R'" = Ok false.
Proof. vm_compute. reflexivity. Qed.

(** A relation that involves all six faces: turning Up between two copies
    of R L' F2 B2 R L' is the same as turning Down. *)
Example up_conjugated_is_down :
  sequences_equivalent "R L' F2 B2 R L' U R L' F2 B2 R L'" "D" = Ok true.
Proof. vm_compute. reflexivity. Qed.

Example malformed_token_rejected :
  parse_sequence "R U2 X R'" = Err (ParseError "X" 2) /\
  well_formed_sequence "(R U R' U')" = false /\
  tokenize "  R U2   R'  " = ["R"; "U2"; "R'"].
Proof. repeat split; vm_compute; reflexivity. Qed.

Lemma all_coords_in_range :
  Forall (fun c => valid_coord c = true /\ slot_index c < 54) all_coords.
Proof. by_evaluation. Qed.

Lemma index_table_permutation (m : Move) : index_table m ≡ₚ seq 0 54.
Proof. destruct m as [[] []]; by_evaluation. Qed.

Section Laws.
Context {Sticker : Type}.
Implicit Types s : @CubeState Sticker.

Lemma read_in_range s (c : Coord) :
  well_formed s -> valid_coord c = true -> slot_index c < 54 ->
  exists x, read s c = Ok x.
Proof.
  intros Hs Hc Hi. unfold read, CubeState in *. rewrite Hc.
  destruct (lookup_lt_is_Some_2 s (slot_index c)) as [x Hx].
  - unfold well_formed in Hs. by rewrite Hs.
  - exists x. by rewrite Hx.
Qed.

(** The engine moves stickers without looking at them: the result of a move
    is read off the index table. *)
Lemma apply_move_table (m : Move) s (d : Sticker) :
  well_formed s ->
  apply_move s m = Ok ((fun i => nth i s d) <$> index_table m).
Proof.
  intros Hs. destruct_slots s Hs.
  destruct m as [[] []]; vm_compute; reflexivity.
Qed.

Lemma apply_move_permutation (m : Move) s :
  well_formed s ->
  exists s', apply_move s m = Ok s' /\ s' ≡ₚ s.
Proof.
  intros Hs. destruct s as [| d s0] eqn:Es; [discriminate Hs |]. rewrite <- Es in *.
  exists ((fun i => nth i s d) <$> index_table m). split.
  - by apply apply_move_table.
  - rewrite (index_table_permutation m).
    clear Es. destruct_slots s Hs. reflexivity.
Qed.

Lemma four_quarter_turns (f : Face) s :
  well_formed s ->
  apply_sequence s (replicate 4 (mkMove f Clockwise)) = Ok s.
Proof.
  intros Hs. destruct_slots s Hs.
  destruct f; vm_compute; reflexivity.
Qed.

(** The counter-clockwise quarter turn undoes the clockwise one. *)
Lemma clockwise_then_counter_clockwise (f : Face) s :
  well_formed s ->
  apply_sequence s [mkMove f Clockwise; mkMove f CounterClockwise] = Ok s.
Proof.
  intros Hs. destruct_slots s Hs.
  destruct f; vm_compute; reflexivity.
Qed.

Context `{EqDecision Sticker}.

Lemma equivalent_fold s (cs : list Coord) (acc : bool) :
  well_formed s ->
  Forall (fun c => valid_coord c = true /\ slot_index c < 54) cs ->
  foldR (fun acc c => x ← read s c ; y ← read s c ; Ok (acc && bool_decide (x = y))) acc cs
  = Ok acc.
Proof.
  intros Hs Hcs. revert acc. induction Hcs as [| c cs [Hc Hi] _ IH]; intros acc; [done |].
  destruct (read_in_range s c Hs Hc Hi) as [x Hx].
  simpl. rewrite Hx. simpl. rewrite bool_decide_eq_true_2 by done.
  rewrite andb_true_r. apply IH.
Qed.

Lemma equivalent_refl s : well_formed s -> equivalent s s = Ok true.
Proof. intros Hs. apply equivalent_fold; [done | apply all_coords_in_range]. Qed.

(** C5: for every face and every state of 54 slots, four clockwise quarter
    turns of the face in succession give a state that the equivalence
    checker finds equivalent to the state they started from. *)
Theorem four_clockwise_turns_identity (f : Face) s :
  well_formed s ->
  exists s',
    apply_sequence s [mkMove f Clockwise; mkMove f Clockwise;
                      mkMove f Clockwise; mkMove f Clockwise] = Ok s' /\
    equivalent s' s = Ok true.
Proof.
  intros Hs. exists s. split.
  - by apply (four_quarter_turns f).
  - by apply equivalent_refl.
Qed.

Lemma apply_sequence_permutation (ms : list Move) s :
  well_formed s ->
  exists s', apply_sequence s ms = Ok s' /\ s' ≡ₚ s /\ well_formed s'.
Proof.
  revert s. induction ms as [| m ms IH]; intros s Hs.
  - exists s. by repeat split.
  - destruct (apply_move_permutation m s Hs) as (s1 & Hmove & Hperm).
    assert (Hs1 : well_formed s1).
    { unfold well_formed in *. by rewrite (Permutation_length Hperm). }
    destruct (IH s1 Hs1) as (s' & Hseq & Hperm' & Hs').
    exists s'. split; [| split; [by rewrite Hperm' | done]].
    unfold apply_sequence in *. simpl. rewrite Hmove. exact Hseq.
Qed.

(** The same for a sequence given in the input notation. *)
Lemma execute_permutation (seq : string) (ms : list Move) s :
  parse_sequence seq = Ok ms ->
  well_formed s ->
  exists s', execute s seq = Ok s' /\ s' ≡ₚ s.
Proof.
  intros Hparse Hs. unfold execute. rewrite Hparse. simpl.
  destruct (apply_sequence_permutation ms s Hs) as (s' & Hseq & Hperm & _). eauto.
Qed.

(** C6: for every state of 54 slots and every sequence of moves, the
    sequence applies, and the stickers of the resulting state are those of
    the state before, each as many times: a permutation, with none
    duplicated or lost. *)
Theorem sequence_conserves_stickers (ms : list Move) s :
  well_formed s ->
  exists s', apply_sequence s ms = Ok s' /\ s' ≡ₚ s /\ well_formed s'.
Proof. apply apply_sequence_permutation. Qed.

End Laws.

Lemma four_clockwise_turns_identity_witness :
  well_formed solved_marked /\
  exists s',
    apply_sequence solved_marked
      [mkMove Right Clockwise; mkMove Right Clockwise;
       mkMove Right Clockwise; mkMove Right Clockwise] = Ok s' /\
    equivalent s' solved_marked = Ok true.
Proof.
  split; [reflexivity |].
  apply (four_clockwise_turns_identity Right solved_marked). reflexivity.
Defined.

Lemma sequence_conserves_stickers_witness :
  well_formed solved_marked /\
  exists s',
    apply_sequence solved_marked
      [mkMove Right Clockwise; mkMove Up Clockwise;
       mkMove Right CounterClockwise; mkMove Up CounterClockwise] = Ok s' /\
    s' ≡ₚ solved_marked /\ well_formed s'.
Proof.
  split; [reflexivity |].
  apply (sequence_conserves_stickers
           [mkMove Right Clockwise; mkMove Up Clockwise;
            mkMove Right CounterClockwise; mkMove Up CounterClockwise] solved_marked).
  reflexivity.
Defined.

End EngineFacts.

(** ** More on the test generator *)

Module TestMarkedCubeMoreFacts.
Import Py TestMarkedCube.

(** X1: every test case that [create_marked_cube_test] returns has exactly
    the keys "name", "move" and "description", and its description is
    "Apply m to marked cube to detect inversions" for its move [m]. *)
Theorem test_cases_keys_and_description :
  exists tests,
    result create_marked_cube_test = Normal tests /\
    Forall2 (fun move test =>
               dom test = ({[ "name"; "move"; "description" ]} : gset string) /\
               test !! "description" =
                 Some ("Apply " +:+ move +:+ " to marked cube to detect inversions"))
            basic_moves tests.
Proof.
  eexists. split; [reflexivity |].
  repeat (apply Forall2_cons; split; [split; [by_evaluation | vm_compute; reflexivity] |]).
  apply Forall2_nil_2.
Qed.

(** X2: the names of the test cases that [create_marked_cube_test] returns
    are pairwise distinct, and so are their moves: a name identifies one
    test case. *)
Theorem test_case_names_distinct :
  exists tests,
    result create_marked_cube_test = Normal tests /\
    NoDup ((fun test => test !! "name") <$> tests) /\
    NoDup ((fun test => test !! "move") <$> tests).
Proof.
  eexists. split; [reflexivity |]. split; by_evaluation.
Qed.

(** X3: [main] runs to its end without an exception and prints 30 lines:
    the first banner, the four-line blocks of the first five test cases, the
    second banner, one "should equal" line for each pair of
    [create_equivalence_tests] in the order of the list, an empty line and
    the closing line. *)
Theorem main_output :
  exists tests pairs,
    result create_marked_cube_test = Normal tests /\
    result create_equivalence_tests = Normal pairs /\
    run main =
      (Normal tt,
       "=== Marked Cube Tests ===" ::
       flat_map (fun test => report_lines test ++ [""]) (take 5 tests) ++
       "=== Equivalence Tests ===" ::
       ((fun pair => equivalence_line (fst pair) (snd pair)) <$> pairs) ++
       [""; "Run these tests to find subtle inversion bugs!"]) /\
    length (printed main) = 30.
Proof.
  eexists. eexists. split; [reflexivity |]. split; [reflexivity |].
  split; vm_compute; reflexivity.
Qed.

End TestMarkedCubeMoreFacts.

(** ** More on the scraper *)

Module ParseOrdersMoreFacts.
Import Py PyU Str Soup ParseOrders ParseOrdersMore ParseOrdersFacts.

Section Script.
Variable isspace : char -> bool.
Variable isdigit_char : char -> bool.

#[local] Abbreviation lstrip := (lstrip isspace).
#[local] Abbreviation rstrip := (rstrip isspace).
#[local] Abbreviation strip := (strip isspace).
#[local] Abbreviation blank := (blank isspace).
#[local] Abbreviation starts_with_space := (starts_with_space isspace).
#[local] Abbreviation ends_with_space := (ends_with_space isspace).
#[local] Abbreviation kept := (kept isspace).
#[local] Abbreviation padded := (padded isspace).
#[local] Abbreviation get_text_strip := (get_text_strip isspace).
#[local] Abbreviation row_step := (row_step isspace isdigit_char).
#[local] Abbreviation script := (script isspace isdigit_char).
#[local] Abbreviation is_data_row := (is_data_row isspace isdigit_char).
#[local] Abbreviation data_line := (data_line isspace).
#[local] Abbreviation row_lines_ok := (row_lines_ok isspace isdigit_char).
#[local] Abbreviation is_data_line := (is_data_line isspace isdigit_char).

(** *** Stripping *)

Lemma lstrip_start (s : str) : starts_with_space (lstrip s) = false.
Proof.
  induction s as [| c s IH]; simpl; [done |].
  destruct (isspace c) eqn:Hc; simpl; [exact IH | exact Hc].
Qed.

Lemma rstrip_keeps_start (s : str) :
  starts_with_space s = false -> starts_with_space (rstrip s) = false.
Proof.
  destruct s as [| c s]; simpl; [done |]. intros Hc.
  destruct (Str.rstrip isspace s); simpl; by rewrite ?Hc.
Qed.

Lemma rstrip_end (s : str) : ends_with_space (rstrip s) = false.
Proof.
  unfold ParseOrdersMore.ends_with_space.
  induction s as [| c s IH]; simpl; [done |].
  destruct (Str.rstrip isspace s) as [| c' r]; simpl in *.
  - destruct (isspace c) eqn:Hc; simpl; [done | exact Hc].
  - exact IH.
Qed.

Lemma rstrip_empty (s : str) : rstrip s = [] <-> blank s = true.
Proof.
  unfold ParseOrdersMore.blank. induction s as [| c s IH]; simpl; [done |].
  destruct (Str.rstrip isspace s) as [| c' r]; simpl.
  - destruct (isspace c); simpl; [| split; intros; discriminate].
    split; intros _; [by apply IH | done].
  - split; [discriminate |]. intros [_ H]%andb_prop. apply IH in H. discriminate H.
Qed.

Lemma lstrip_blank (s : str) : blank (lstrip s) = blank s.
Proof.
  unfold ParseOrdersMore.blank. induction s as [| c s IH]; simpl; [done |].
  destruct (isspace c) eqn:Hc; simpl; [exact IH | by rewrite Hc].
Qed.

Lemma strip_empty (s : str) : strip s = [] <-> blank s = true.
Proof. unfold Str.strip. by rewrite rstrip_empty, lstrip_blank. Qed.

Lemma lstrip_after_blank (a s : str) : blank a = true -> lstrip (a ++ s) = lstrip s.
Proof.
  unfold ParseOrdersMore.blank. induction a as [| c a IH]; [done |].
  simpl. intros [Hc Ha]%andb_prop. rewrite Hc. by apply IH.
Qed.

Lemma rstrip_before_blank (s b : str) : blank b = true -> rstrip (s ++ b) = rstrip s.
Proof.
  intros Hb. induction s as [| c s IH]; simpl.
  - by apply rstrip_empty.
  - by rewrite IH.
Qed.

Lemma strip_before_blank (s b : str) : blank b = true -> strip (s ++ b) = strip s.
Proof.
  intros Hb. unfold Str.strip. induction s as [| c s IH]; simpl.
  - apply rstrip_empty. by rewrite lstrip_blank.
  - destruct (isspace c); [exact IH |].
    by apply (rstrip_before_blank (c :: s) b).
Qed.

Lemma strip_padded (s t : str) : padded s t -> strip s = strip t.
Proof.
  intros (before & after & Hbefore & Hafter & ->).
  unfold Str.strip. rewrite (lstrip_after_blank before (t ++ after) Hbefore).
  by apply strip_before_blank.
Qed.

(** *** Joining *)

Lemma ends_append (a b : str) :
  truthy b = true -> ends_with_space (a ++ b) = ends_with_space b.
Proof.
  intros Hb. unfold ParseOrdersMore.ends_with_space.
  destruct b as [| c b]; [discriminate Hb |].
  rewrite (last_app a (c :: b)).
  destruct (last (c :: b)) as [x |] eqn:Hlast; [done |].
  by apply last_None in Hlast.
Qed.

Lemma join_trimmed (l : list str) :
  Forall kept l ->
  starts_with_space (join l) = false /\ ends_with_space (join l) = false.
Proof.
  unfold join.
  induction 1 as [| s l (Hs & Hstart & Hend) _ [IHstart IHend]]; simpl; [done |].
  split.
  - destruct s; [discriminate Hs | exact Hstart].
  - destruct (truthy (concat l)) eqn:Hl.
    + by rewrite ends_append.
    + apply truthy_false in Hl. rewrite Hl. by rewrite app_nil_r.
Qed.

Lemma join_empty (l : list str) :
  Forall (fun s => truthy s = true) l -> join l = [] -> l = [].
Proof.
  unfold join. intros Hl Hjoin. destruct Hl as [| s l Hs _]; [done |].
  destruct s; [discriminate Hs | discriminate Hjoin].
Qed.

Lemma kept_strings (n : node) :
  Forall kept (List.filter truthy (List.map strip (strings n))).
Proof.
  apply List.Forall_forall. intros s [Hin Hs]%List.filter_In.
  apply List.in_map_iff in Hin as (s0 & <- & _).
  repeat split; [exact Hs | apply rstrip_keeps_start, lstrip_start | apply rstrip_end].
Qed.

Lemma get_text_strip_trimmed (n : node) :
  starts_with_space (get_text_strip n) = false /\
  ends_with_space (get_text_strip n) = false.
Proof. apply join_trimmed, kept_strings. Qed.

Lemma get_text_strip_empty (n : node) :
  get_text_strip n = [] <-> Forall (fun s => blank s = true) (strings n).
Proof.
  unfold Soup.get_text_strip. split.
  - intros Hjoin. apply join_empty in Hjoin.
    + apply List.Forall_forall. intros s Hs. apply strip_empty.
      destruct (truthy (strip s)) eqn:Hstrip; [| by apply truthy_false].
      assert (Hin : List.In (strip s) (List.filter truthy (List.map strip (strings n)))).
      { apply List.filter_In. split; [by apply List.in_map | done]. }
      rewrite Hjoin in Hin. destruct Hin.
    + eapply Forall_impl; [apply kept_strings |]. by intros s (Hs & _).
  - generalize (strings n). intros l Hall.
    induction Hall as [| s l Hs _ IH]; simpl; [done |].
    apply strip_empty in Hs. rewrite Hs. exact IH.
Qed.

(** *** Digits and the tab *)

Lemma split_tab_after_digits (order sequence : str) :
  isdigit_char tab_char = false ->
  forallb isdigit_char order = true ->
  split_tab (order ++ tab_char :: sequence) = Some (order, sequence).
Proof.
  intros Htab. induction order as [| c order IH]; simpl; [done |].
  intros [Hc Horder]%andb_prop.
  destruct (N.eqb_spec c tab_char) as [-> | _]; [congruence |].
  by rewrite (IH Horder).
Qed.

(** *** The script *)

Lemma data_row_line (row : node) (line : str) :
  is_data_row row -> data_line row = Some line ->
  exists c0 c1 c2 rest,
    find_all "td" row = c0 :: c1 :: c2 :: rest /\
    is_data_line line (get_text_strip c0) (get_text_strip c2).
Proof.
  intros (c0 & c1 & c2 & rest & Hcells & Horder & Hdigits & Hseq) Hline.
  unfold ParseOrders.data_line in Hline. rewrite Hcells in Hline. injection Hline as <-.
  exists c0, c1, c2, rest. split; [done |].
  destruct (get_text_strip_trimmed c2) as [Hstart Hend].
  unfold ParseOrdersMore.is_data_line.
  split; [done |]. split; [by apply isdigit_true |].
  split; [by apply truthy_true | done].
Qed.

Lemma emitted_lines (rows : list node) (emitted : list (list str)) :
  Forall2 row_lines_ok rows emitted ->
  length (concat emitted) <= length rows /\
  Forall (fun line => exists order sequence, is_data_line line order sequence)
         (concat emitted).
Proof.
  induction 1 as [| row lines rows emitted Hrow _ [IHlen IHall]]; simpl; [done |].
  destruct Hrow as [(Hrow & line & Hline & ->) | (_ & ->)]; simpl.
  - split; [lia |]. constructor; [| done].
    destruct (data_row_line row line Hrow Hline) as (c0 & _ & c2 & _ & _ & Hdata).
    by exists (get_text_strip c0), (get_text_strip c2).
  - split; [lia | done].
Qed.




(** X9: a row whose first cell or third cell holds no text other than
    whitespace (strings that [get_text] leaves out, such as comments, do not
    count) prints nothing. *)
Theorem blank_cell_row_skipped (row cell : node) (out : stdout) :
  find_all "td" row !! 0 = Some cell \/ find_all "td" row !! 2 = Some cell ->
  Forall (fun s => blank s = true) (strings cell) ->
  row_step row out = (Normal tt, out).
Proof.
  intros Hcell Hblank. apply get_text_strip_empty in Hblank.
  destruct (row_step_spec isspace isdigit_char row out)
    as [(Hrow & _) | (_ & Hstep)]; [| done].
  destruct Hrow as (c0 & c1 & c2 & rest & Hcells & Horder & _ & Hseq).
  rewrite Hcells in Hcell. simpl in Hcell.
  destruct Hcell as [[= ->] | [= ->]]; congruence.
Qed.

(** X10: when the table has no row, or only its first row, the script
    prints the two header lines and nothing else, and ends normally. *)
Theorem short_table_prints_header_only (soup table : node) :
  find "table" soup = Some table ->
  length (find_all "tr" table) <= 1 ->
  run (script soup) = (Normal tt, header_lines).
Proof.
  intros Htable Hrows. unfold run, ParseOrders.script. rewrite Htable.
  destruct (find_all "tr" table) as [| row [| row' rows]]; simpl in *; [done | done | lia].
Qed.

(** X11: only the first table of the page, in document order, is read: the
    script prints what it prints for a page that holds that table alone. *)
Theorem first_table_only (soup table : node) (others : list node) :
  find_all "table" soup = table :: others ->
  run (script soup) = run (script (Tag (lit "[document]") [table])).
Proof.
  intros Htables.
  assert (Htag : is_tag "table" table = true).
  { assert (Hin : List.In table (find_all "table" soup)) by (rewrite Htables; by left).
    by apply List.filter_In in Hin as [_ Htag]. }
  assert (Hsingle : find "table" (Tag (lit "[document]") [table]) = Some table).
  { unfold find, find_all.
    change (descendants (Tag (lit "[document]") [table]))
      with (table :: descendants table ++ []).
    simpl List.filter. by rewrite Htag. }
  unfold run, ParseOrders.script. rewrite Hsingle.
  unfold find. by rewrite Htables.
Qed.

(** X12: whitespace added before and after the strings of a cell does not
    change the text that the script takes from the cell: two cells whose
    collected strings are the same up to such whitespace have the same
    text. *)
Theorem cell_text_ignores_outer_whitespace (cell cell' : node) :
  Forall2 padded (strings cell) (strings cell') ->
  get_text_strip cell = get_text_strip cell'.
Proof.
  intros Hall. unfold Soup.get_text_strip. f_equal. f_equal.
  induction Hall as [| s t l l' Hst _ IH]; simpl; [done |].
  by rewrite (strip_padded s t Hst), IH.
Qed.

End Script.



Lemma blank_cell_row_skipped_witness :
  row_step isspace_unicode isdigit_sample blank_order_row [lit "before"] =
  (Normal tt, [lit "before"]).
Proof.
  apply (blank_cell_row_skipped isspace_unicode isdigit_sample
           blank_order_row blank_cell [lit "before"]).
  - left. reflexivity.
  - by_evaluation.
Defined.

Lemma short_table_prints_header_only_witness :
  run (script isspace_unicode isdigit_sample header_only_page) = (Normal tt, header_lines).
Proof.
  apply (short_table_prints_header_only isspace_unicode isdigit_sample
           header_only_page header_only_table).
  - reflexivity.
  - vm_compute. lia.
Defined.

Lemma first_table_only_witness :
  run (script isspace_unicode isdigit_sample two_table_page) =
  run (script isspace_unicode isdigit_sample (Tag (lit "[document]") [sample_table])).
Proof.
  apply (first_table_only isspace_unicode isdigit_sample
           two_table_page sample_table [second_table]).
  reflexivity.
Defined.

Lemma cell_text_ignores_outer_whitespace_witness :
  get_text_strip isspace_unicode padded_cell = get_text_strip isspace_unicode plain_cell.
Proof.
  apply (cell_text_ignores_outer_whitespace isspace_unicode padded_cell plain_cell).
  apply Forall2_cons; split.
  - exists [160%N; 32%N], [10%N]. repeat split; reflexivity.
  - apply Forall2_cons; split; [| apply Forall2_nil_2].
    exists [9%N], [8195%N]. repeat split; reflexivity.
Defined.

End ParseOrdersMoreFacts.
